(** * djedi.rest.api: the REST views of djedi-cms

    A shallow embedding of [src/djedi/rest/api.py]: the three view classes
    [APIView], [EmbedApi] and [NodesApi], the Python dictionaries and lists
    they build, and the part of the host framework (class based views,
    decorators, the CSRF middleware) that decides which handler runs and what
    happens to its response.

    Handlers are computations in a state-and-exception monad over a [World]
    made of the content library's state (its settings and its storage) and a
    trace of the library calls made so far.  The collaborators that are not
    part of the file (simplejson, cio, the permission check, the template
    renderer, the clock) are the fields of a record [Externals]. *)

From Stdlib Require Import List String Ascii ZArith Bool Lia DecimalString.
Import ListNotations.
Open Scope string_scope.
Open Scope Z_scope.

Set Implicit Arguments.
Set Warnings "-register-all".

(** ** Python values *)

(** The values [json.loads] produces and [json.dumps] consumes.  Numbers are
    integers here; the handlers pass defaults and contents through without
    looking inside them. *)
Inductive json : Type :=
| JNull
| JBool (b : bool)
| JNumber (z : Z)
| JString (s : string)
| JArray (l : list json)
| JObject (m : list (string * json)).

(** The exceptions that can leave a handler. *)
Inductive exn : Type :=
| JSONDecodeError (msg : string)
| AttributeError (msg : string)
| LibraryError (msg : string).

(** The outcome of a Python call: a value, or a raised exception. *)
Inductive outcome (A : Type) : Type :=
| Returned (a : A)
| Raised (e : exn).
Arguments Raised {A} e.

(** ** Python dictionaries

    A [dict] keeps its keys in insertion order; storing under a key that is
    already present replaces the value and leaves the key where it was. *)
Module Dict.

Definition t (V : Type) : Type := list (string * V).

Definition empty {V : Type} : t V := [].

Fixpoint get {V : Type} (d : t V) (k : string) : option V :=
  match d with
  | [] => None
  | (k', v) :: rest => if String.eqb k k' then Some v else get rest k
  end.

(** [d[k] = v] *)
Fixpoint set {V : Type} (d : t V) (k : string) (v : V) : t V :=
  match d with
  | [] => [(k, v)]
  | (k', v') :: rest =>
      if String.eqb k k' then (k', v) :: rest else (k', v') :: set rest k v
  end.

Definition keys {V : Type} (d : t V) : list string := map fst d.

(** [d.items()] *)
Definition items {V : Type} (d : t V) : list (string * V) := d.

(** [{key(x): value(x) for x in xs}] *)
Definition comprehension {A V : Type} (key : A -> string) (value : A -> V)
    (xs : list A) : t V :=
  fold_left (fun d x => set d (key x) (value x)) xs empty.

End Dict.

(** ** Requests and responses *)

Inductive http_method : Type :=
| GET | POST | PUT | PATCH | DELETE | HEAD | OPTIONS | TRACE
| EXTENSION (name : string).

Record HttpRequest : Type := {
  method : http_method;
  body : string;
  (** whether the request carries the CSRF token the middleware expects *)
  csrf_token_valid : bool;
  (** the session the permission check looks at *)
  user : string
}.

(** A value of a [Cache-Control] directive: a bare flag or a number. *)
Inductive cc_value : Type :=
| CCFlag
| CCNumber (z : Z).

Record HttpResponse : Type := {
  status_code : Z;
  content : string;
  headers : Dict.t string;
  cache_control : Dict.t cc_value
}.

(** [HttpResponse(content, content_type=..., status=...)] with Django's
    defaults: status 200, empty content, an HTML content type. *)
Definition HttpResponse_new (content : string) (content_type : option string)
    (status : option Z) : HttpResponse :=
  {| status_code := match status with Some s => s | None => 200 end;
     content := content;
     headers :=
       [("Content-Type",
         match content_type with
         | Some ct => ct
         | None => "text/html; charset=utf-8"
         end)];
     cache_control := Dict.empty |}.

Definition join_comma (l : list string) : string := String.concat ", " l.

(** [HttpResponseNotAllowed(permitted_methods)] *)
Definition HttpResponseNotAllowed (permitted : list string) : HttpResponse :=
  let r := HttpResponse_new "" None (Some 405) in
  {| status_code := status_code r;
     content := content r;
     headers := Dict.set (headers r) "Allow" (join_comma permitted);
     cache_control := cache_control r |}.

(** [HttpResponseForbidden], what the CSRF middleware answers with. *)
Definition HttpResponseForbidden (reason : string) : HttpResponse :=
  HttpResponse_new reason None (Some 403).

(** ** The content library's state and the world *)

(** cio: the one setting this file touches, and the storage behind it. *)
Record CioState (B : Type) : Type := {
  CACHE_ON_GET : bool;
  backend : B
}.

(** A node as the handlers see it: [node.uri] and [node.content]. *)
Record Node : Type := {
  uri : string;
  node_content : json
}.

(** The library calls a request makes, in order. *)
Inductive event : Type :=
| EvConfigure (cache_on_get : bool)
| EvGet (uri : string) (default : json) (cache_on_get : bool).

Record World (B : Type) : Type := {
  cio : CioState B;
  trace : list event
}.

(** ** The monad of handlers *)

Definition M (B A : Type) : Type := World B -> outcome A * World B.

Definition ret {B A : Type} (a : A) : M B A := fun w => (Returned a, w).

Definition raise {B A : Type} (e : exn) : M B A := fun w => (Raised e, w).

Definition bind {B A C : Type} (m : M B A) (k : A -> M B C) : M B C :=
  fun w =>
    match m w with
    | (Returned a, w') => k a w'
    | (Raised e, w') => (Raised e, w')
    end.

Declare Scope py_scope.
Delimit Scope py_scope with py.
Notation "x <- m ;; k" := (bind m (fun x => k))
  (at level 100, m at next level, right associativity) : py_scope.
Notation "m ;;; k" := (bind m (fun _ => k))
  (at level 100, right associativity) : py_scope.
Open Scope py_scope.

(** [acc = init; for x in xs: acc = body(x, acc)], stopping at the first
    exception. *)
Fixpoint for_each {B A S : Type} (xs : list A) (body : A -> S -> M B S)
    (acc : S) : M B S :=
  match xs with
  | [] => ret acc
  | x :: rest => acc' <- body x acc ;; for_each rest body acc'
  end.

(** ** The collaborators outside this file *)

Record Externals (B : Type) : Type := {
  (** [simplejson.loads] on a request body *)
  json_loads : string -> outcome json;
  (** [simplejson.dumps] on a dictionary *)
  json_dumps : Dict.t json -> string;
  (** [cio.get(uri, default=default)], run against the library's state *)
  cio_get : string -> json -> CioState B -> outcome Node * CioState B;
  (** [djedi.auth.has_permission] *)
  has_permission : HttpRequest -> bool;
  (** the text the embed template renders to *)
  embed_html : HttpRequest -> string;
  (** [http_date(time.time())] *)
  http_date_now : string
}.

(** ** django.views.decorators.cache.never_cache *)

Module Cache.

Definition has_key {V : Type} (d : Dict.t V) (k : string) : bool :=
  match Dict.get d k with Some _ => true | None => false end.

Definition remove {V : Type} (d : Dict.t V) (k : string) : Dict.t V :=
  filter (fun kv => negb (String.eqb k (fst kv))) d.

(** [patch_cache_control(response, **kwargs)]: an older [max-age] caps the
    new one, [public] and [private] displace each other, then every keyword
    becomes a directive. *)
Definition patch_cache_control (response : HttpResponse)
    (kwargs : Dict.t cc_value) : HttpResponse :=
  let cc := cache_control response in
  let kwargs :=
    match Dict.get cc "max-age", Dict.get kwargs "max-age" with
    | Some (CCNumber old), Some (CCNumber new) =>
        Dict.set kwargs "max-age" (CCNumber (Z.min old new))
    | _, _ => kwargs
    end in
  let cc :=
    if has_key cc "private" && has_key kwargs "public"
    then remove cc "private"
    else if has_key cc "public" && has_key kwargs "private"
    then remove cc "public"
    else cc in
  {| status_code := status_code response;
     content := content response;
     headers := headers response;
     cache_control :=
       fold_left (fun d kv => Dict.set d (fst kv) (snd kv)) kwargs cc |}.

(** [patch_response_headers(response, cache_timeout)] *)
Definition patch_response_headers (now : string) (response : HttpResponse)
    (cache_timeout : Z) : HttpResponse :=
  let cache_timeout := if cache_timeout <? 0 then 0 else cache_timeout in
  let response :=
    if has_key (headers response) "Expires" then response
    else {| status_code := status_code response;
            content := content response;
            headers := Dict.set (headers response) "Expires" now;
            cache_control := cache_control response |} in
  patch_cache_control response [("max-age", CCNumber cache_timeout)].

Definition add_never_cache_headers (now : string) (response : HttpResponse)
    : HttpResponse :=
  patch_cache_control (patch_response_headers now response (-1))
    [("no-cache", CCFlag); ("no-store", CCFlag);
     ("must-revalidate", CCFlag); ("private", CCFlag)].

End Cache.

(** ** django.views.generic.View and the CSRF middleware *)

Section Framework.

Variable B : Type.

Definition handler : Type := HttpRequest -> M B HttpResponse.

(** A view class: the methods its body names after HTTP verbs, its
    [dispatch], and the [csrf_exempt] attribute [dispatch] carries (which
    [as_view] copies onto the callable the middleware inspects). *)
Record view_class : Type := {
  defined : http_method -> option handler;
  dispatch : handler;
  dispatch_csrf_exempt : bool
}.

(** [self.head = self.get] unless the class has a [head] of its own;
    [options] is provided by [View]. *)
Definition has_method (defined : http_method -> option handler)
    (m : http_method) : bool :=
  match m, defined m with
  | EXTENSION _, _ => false
  | _, Some _ => true
  | HEAD, None => match defined GET with Some _ => true | None => false end
  | OPTIONS, None => true
  | _, None => false
  end.

Definition http_method_names : list (http_method * string) :=
  [(GET, "GET"); (POST, "POST"); (PUT, "PUT"); (PATCH, "PATCH");
   (DELETE, "DELETE"); (HEAD, "HEAD"); (OPTIONS, "OPTIONS");
   (TRACE, "TRACE")].

(** [View._allowed_methods] *)
Definition allowed_methods (defined : http_method -> option handler)
    : list string :=
  map snd (filter (fun m => has_method defined (fst m)) http_method_names).

(** [View.options] *)
Definition View_options (defined : http_method -> option handler)
    : handler :=
  fun _ =>
    let r := HttpResponse_new "" None None in
    ret {| status_code := status_code r;
           content := content r;
           headers :=
             Dict.set
               (Dict.set (headers r) "Allow"
                  (join_comma (allowed_methods defined)))
               "Content-Length" "0";
           cache_control := cache_control r |}.

(** [View.http_method_not_allowed] *)
Definition http_method_not_allowed
    (defined : http_method -> option handler) : handler :=
  fun _ => ret (HttpResponseNotAllowed (allowed_methods defined)).

(** [getattr(self, request.method.lower(), self.http_method_not_allowed)]
    for the methods in [http_method_names]. *)
Definition View_dispatch (defined : http_method -> option handler)
    : handler :=
  fun request =>
    let handler :=
      match method request, defined (method request) with
      | EXTENSION _, _ => http_method_not_allowed defined
      | _, Some h => h
      | HEAD, None =>
          match defined GET with
          | Some h => h
          | None => http_method_not_allowed defined
          end
      | OPTIONS, None => View_options defined
      | _, None => http_method_not_allowed defined
      end in
    handler request.

(** [class C(View)] with the given methods. *)
Definition View (defined : http_method -> option handler) : view_class :=
  {| defined := defined;
     dispatch := View_dispatch defined;
     dispatch_csrf_exempt := false |}.

(** [method_decorator(never_cache)] *)
Definition never_cache (now : string) (view : handler) : handler :=
  fun request =>
    response <- view request ;;
    ret (Cache.add_never_cache_headers now response).

(** [CsrfViewMiddleware.process_view]: [None] lets the request through. *)
Definition CsrfViewMiddleware_process_view (cls : view_class)
    (request : HttpRequest) : option HttpResponse :=
  if dispatch_csrf_exempt cls then None
  else
    match method request with
    | GET | HEAD | OPTIONS | TRACE => None
    | _ =>
        if csrf_token_valid request then None
        else Some (HttpResponseForbidden "CSRF verification failed.")
    end.

(** What [cls.as_view()] answers to a request behind the middleware. *)
Definition serve (cls : view_class) : handler :=
  fun request =>
    match CsrfViewMiddleware_process_view cls request with
    | Some response => ret response
    | None => dispatch cls request
    end.

End Framework.

(** ** src/djedi/rest/api.py *)

Section Api.

Variable B : Type.
Variable env : Externals B.

(** [cio.conf.settings.configure(local=True,
      CACHE={"PIPE": {"CACHE_ON_GET": value}})] *)
Definition cio_conf_settings_configure (value : bool) : M B unit :=
  fun w =>
    (Returned tt,
     {| cio := {| CACHE_ON_GET := value; backend := backend (cio w) |};
        trace := (trace w ++ [EvConfigure value])%list |}).

(** [cio.get(uri, default=default)]: the library runs on its own state; the
    call is recorded with the setting it ran under. *)
Definition cio_get_call (uri : string) (default : json) : M B Node :=
  fun w =>
    let (result, s) := cio_get env uri default (cio w) in
    (result,
     {| cio := s;
        trace :=
          (trace w ++ [EvGet uri default (CACHE_ON_GET (cio w))])%list |}).

(** [json.loads(request.body)] *)
Definition json_loads_call (body : string) : M B json :=
  fun w => (json_loads env body, w).

(** [value.items()]: only a [dict] has the method. *)
Definition items (value : json) : M B (list (string * json)) :=
  match value with
  | JObject d => ret (Dict.items d)
  | _ => raise (AttributeError "object has no attribute 'items'")
  end.

(** Modelled from the spec: [render_embed] of [djedi/utils/templates.py],
    which is not in src.  With a request it renders the embed template to
    an HTTP 200 response whose body is the embed HTML. *)
Definition render_embed (request : HttpRequest) : M B HttpResponse :=
  ret (HttpResponse_new (embed_html env request) None None).

(** Modelled from the spec: [JSONResponseMixin.render_to_json] of
    [djedi/admin/mixins.py], which is not in src.  The response body is the
    JSON text of the data, the content type is JSON, the status 200. *)
Definition render_to_json (data : Dict.t json) : M B HttpResponse :=
  ret (HttpResponse_new (json_dumps env data) (Some "application/json") None).

(** [EmbedApi.get] *)
Definition EmbedApi_get : handler B :=
  fun request =>
    if has_permission env request then
      render_embed request
    else
      ret (HttpResponse_new "" None (Some 204)).

(** [NodesApi.post], under [@method_decorator(never_cache)] *)
Definition NodesApi_post : handler B :=
  never_cache (http_date_now env) (fun request =>
    cio_conf_settings_configure false ;;;
    loaded <- json_loads_call (body request) ;;
    entries <- items loaded ;;
    nodes <- for_each entries
               (fun '(uri, default) nodes =>
                  node <- cio_get_call uri default ;;
                  ret (nodes ++ [node])%list)
               [] ;;
    let data := Dict.comprehension uri node_content nodes in
    render_to_json data).

(** [NodesApi.get] *)
Definition NodesApi_get : handler B :=
  fun request =>
    loaded <- json_loads_call (body request) ;;
    entries <- items loaded ;;
    nodes <- for_each entries
               (fun '(uri, default) nodes =>
                  node <- cio_get_call uri default ;;
                  ret (nodes ++ [node])%list)
               [] ;;
    let data := Dict.comprehension uri node_content nodes in
    render_to_json data.

(** [class APIView(JSONResponseMixin, View)]: [dispatch] is the inherited
    one under [@csrf_exempt]; a subclass adds its methods. *)
Definition APIView (defined : http_method -> option (handler B))
    : view_class B :=
  {| defined := defined;
     dispatch := fun request => View_dispatch defined request;
     dispatch_csrf_exempt := true |}.

(** [class EmbedApi(View)] *)
Definition EmbedApi : view_class B :=
  View (fun m => match m with GET => Some EmbedApi_get | _ => None end).

(** [class NodesApi(APIView)] *)
Definition NodesApi : view_class B :=
  APIView (fun m =>
    match m with
    | POST => Some NodesApi_post
    | GET => Some NodesApi_get
    | _ => None
    end).

End Api.

(** ** A concrete set of collaborators

    A small content store in the manner of cio: a URI is resolved to its
    canonical form (scheme, language, extension), stored content wins over
    the default, and a default is written to the cache only while
    [CACHE_ON_GET] is on. *)
Module Demo.

Definition dq : string := String "034"%char EmptyString.

Definition quoted (s : string) : string := dq ++ s ++ dq.

Fixpoint show (v : json) : string :=
  match v with
  | JNull => "null"
  | JBool true => "true"
  | JBool false => "false"
  | JNumber z => NilZero.string_of_int (Z.to_int z)
  | JString s => quoted s
  | JArray l => "[" ++ join_comma (map show l) ++ "]"
  | JObject m =>
      "{" ++ join_comma
               (map (fun kv : string * json =>
                       let (k, x) := kv in quoted k ++ ": " ++ show x)
                  m) ++ "}"
  end.

Definition dumps (d : Dict.t json) : string := show (JObject d).

(** The request bodies this decoder knows; any other text is malformed. *)
Definition known : list json :=
  [JObject [("a/uri", JString "default-a")];
   JObject [("a/uri", JString "first"); ("a/uri.txt", JString "second")];
   JObject [("a/uri", JString "first"); ("", JString "second");
            ("b/uri", JString "third")];
   JArray [JNumber 1]].

Definition loads (text : string) : outcome json :=
  match find (fun v => String.eqb text (show v)) known with
  | Some v => Returned v
  | None => Raised (JSONDecodeError "Expecting value")
  end.

Fixpoint has_dot (s : string) : bool :=
  match s with
  | EmptyString => false
  | String c rest => Ascii.eqb c "."%char || has_dot rest
  end.

Definition canonical (u : string) : string :=
  "i18n://sv-se@" ++ (if has_dot u then u else u ++ ".txt").

Definition get (u : string) (default : json) (s : CioState (Dict.t json))
    : outcome Node * CioState (Dict.t json) :=
  if String.eqb u "" then (Raised (LibraryError "invalid uri"), s)
  else
    match Dict.get (backend s) (canonical u) with
    | Some stored =>
        (Returned {| uri := canonical u; node_content := stored |}, s)
    | None =>
        (Returned {| uri := canonical u; node_content := default |},
         if CACHE_ON_GET s
         then {| CACHE_ON_GET := true;
                 backend := Dict.set (backend s) (canonical u) default |}
         else s)
    end.

Definition env : Externals (Dict.t json) :=
  {| json_loads := loads;
     json_dumps := dumps;
     cio_get := get;
     has_permission := fun request => String.eqb (user request) "staff";
     embed_html := fun _ => "<div id=djedi-embed></div>";
     http_date_now := "Thu, 01 Jan 1970 00:00:00 GMT" |}.

Definition world0 : World (Dict.t json) :=
  {| cio := {| CACHE_ON_GET := true; backend := Dict.empty |};
     trace := [] |}.

Definition request (m : http_method) (text : string) (token : bool)
    (who : string) : HttpRequest :=
  {| method := m; body := text; csrf_token_valid := token; user := who |}.



Definition body_a : string := dumps [("a/uri", JString "default-a")].

Definition body_same : string :=
  dumps [("a/uri", JString "first"); ("a/uri.txt", JString "second")].

Definition body_bad_uri : string :=
  dumps [("a/uri", JString "first"); ("", JString "second");
         ("b/uri", JString "third")].

Definition post_a : HttpRequest := request POST body_a false "anyone".

Definition post_same : HttpRequest := request POST body_same false "anyone".

Definition staff_post : HttpRequest := request POST "" true "staff".

End Demo.


(** ** Vocabulary for the statements *)

Section Vocabulary.

Variable B : Type.
Variable env : Externals B.

(** The library's state once [CACHE_ON_GET] has been switched off. *)
Definition uncached (s : CioState B) : CioState B :=
  {| CACHE_ON_GET := false; backend := backend s |}.

(** Every lookup of [entries], made in order from state [s], returns a
    node; [nodes] are those nodes and [s'] is the state they leave. *)
Inductive lookups
  : list (string * json) -> CioState B -> list Node -> CioState B -> Prop :=
| lookups_nil s : lookups [] s [] s
| lookups_cons u d rest s n s1 nodes s2 :
    cio_get env u d s = (Returned n, s1) ->
    lookups rest s1 nodes s2 ->
    lookups ((u, d) :: rest) s (n :: nodes) s2.

(** The lookups a loop over [entries] makes from state [s], up to and
    including the first one that raises. *)
Fixpoint lookup_events (entries : list (string * json)) (s : CioState B)
    : list event :=
  match entries with
  | [] => []
  | (u, d) :: rest =>
      EvGet u d (CACHE_ON_GET s) ::
      match cio_get env u d s with
      | (Returned _, s') => lookup_events rest s'
      | (Raised _, _) => []
      end
  end.

(** The library does not change its own settings while it resolves a
    node. *)
Definition keeps_settings : Prop :=
  forall u d s, CACHE_ON_GET (snd (cio_get env u d s)) = CACHE_ON_GET s.

(** The request cannot be served from state [s]: its body is not JSON, or
    one of its lookups raises after the earlier ones returned. *)
Definition fails_with (request : HttpRequest) (s : CioState B) (e : exn)
    : Prop :=
  json_loads env (body request) = Raised e \/
  exists before u d after nodes s1 s2,
    json_loads env (body request)
      = Returned (JObject (before ++ (u, d) :: after)) /\
    lookups before s nodes s1 /\
    cio_get env u d s1 = (Raised e, s2).

End Vocabulary.

(** The arguments of the [cio.get] calls in a trace. *)
Definition calls_of (t : list event) : list (string * json) :=
  flat_map (fun e =>
              match e with
              | EvGet u d _ => [(u, d)]
              | EvConfigure _ => []
              end) t.

Definition is_get (e : event) : Prop :=
  exists u d flag, e = EvGet u d flag.

(** A lookup made while get-caching was off. *)
Definition ran_uncached (e : event) : Prop :=
  exists u d, e = EvGet u d false.

(** ** Vocabulary for the further properties *)

(** A lookup made while [CACHE_ON_GET] had the value [flag]. *)
Definition ran_with (flag : bool) (e : event) : Prop :=
  exists u d, e = EvGet u d flag.

(** A loaded value that is not a dictionary. *)
Definition not_object (v : json) : Prop :=
  match v with
  | JObject _ => False
  | _ => True
  end.

(** The world right after the configuration call of [NodesApi.post]. *)
Definition after_configure {B : Type} (w : World B) : World B :=
  {| cio := uncached (cio w);
     trace := (trace w ++ [EvConfigure false])%list |}.

(** The elements of [l] that are not in [seen], each where it first
    occurs. *)
Fixpoint first_occurrences (seen l : list string) : list string :=
  match l with
  | [] => []
  | x :: rest =>
      if existsb (String.eqb x) seen then first_occurrences seen rest
      else x :: first_occurrences (seen ++ [x]) rest
  end.

(** The methods [NodesApi] has no handler for. *)
Definition unhandled_by_nodes (m : http_method) : bool :=
  match m with
  | GET | POST | HEAD | OPTIONS => false
  | _ => true
  end.

(** Two sets of collaborators that differ at most in the permission check and
    the embed template. *)
Definition same_content_library {B : Type} (env1 env2 : Externals B) : Prop :=
  json_loads env1 = json_loads env2 /\
  json_dumps env1 = json_dumps env2 /\
  cio_get env1 = cio_get env2 /\
  http_date_now env1 = http_date_now env2.

(** More request bodies for the demonstration store, and a deployment in
    which nobody has permission. *)
Module Fixture.

Definition known : list json :=
  (Demo.known ++
   [JObject [("a/uri", JString "first"); ("b/uri", JString "third")];
    JObject [("a/uri", JString "first"); ("b/uri", JString "third");
             ("a/uri.txt", JString "last")]])%list.

Definition loads (text : string) : outcome json :=
  match find (fun v => String.eqb text (Demo.show v)) known with
  | Some v => Returned v
  | None => Raised (JSONDecodeError "Expecting value")
  end.

Definition env : Externals (Dict.t json) :=
  {| json_loads := loads;
     json_dumps := Demo.dumps;
     cio_get := Demo.get;
     has_permission := has_permission Demo.env;
     embed_html := embed_html Demo.env;
     http_date_now := http_date_now Demo.env |}.

Definition locked_env : Externals (Dict.t json) :=
  {| json_loads := loads;
     json_dumps := Demo.dumps;
     cio_get := Demo.get;
     has_permission := fun _ => false;
     embed_html := fun _ => "";
     http_date_now := http_date_now Demo.env |}.

Definition body_two : string :=
  Demo.dumps [("a/uri", JString "first"); ("b/uri", JString "third")].

Definition body_three : string :=
  Demo.dumps [("a/uri", JString "first"); ("b/uri", JString "third");
              ("a/uri.txt", JString "last")].

End Fixture.

(** * Properties *)

Unset Implicit Arguments.

(** ** Dictionaries *)

Section DictFacts.

Variable V : Type.
Implicit Types (d : Dict.t V) (k : string) (v : V).

Lemma set_keys_in d k v k' :
  In k' (Dict.keys (Dict.set d k v)) <-> In k' (Dict.keys d) \/ k' = k.
Proof.
  induction d as [|[k0 v0] d IH]; simpl.
  - intuition.
  - destruct (String.eqb_spec k k0) as [->|Hne]; simpl.
    + intuition.
    + rewrite IH. intuition.
Qed.

Lemma set_length d k v :
  (List.length (Dict.set d k v) <= S (List.length d))%nat.
Proof.
  induction d as [|[k0 v0] d IH]; simpl; [lia|].
  destruct (String.eqb k k0); simpl; lia.
Qed.

Lemma set_fresh d k v :
  ~ In k (Dict.keys d) -> Dict.set d k v = (d ++ [(k, v)])%list.
Proof.
  induction d as [|[k0 v0] d IH]; simpl; intros Hk; [reflexivity|].
  destruct (String.eqb_spec k k0) as [->|Hne].
  - exfalso. apply Hk. now left.
  - rewrite IH; [reflexivity|]. intros Hin. apply Hk. now right.
Qed.

Lemma set_NoDup d k v :
  NoDup (Dict.keys d) -> NoDup (Dict.keys (Dict.set d k v)).
Proof.
  induction d as [|[k0 v0] d IH]; simpl; intros Hd.
  - constructor; [intros []|constructor].
  - inversion Hd as [|? ? Hk0 Hd']; subst.
    destruct (String.eqb_spec k k0) as [->|Hne]; simpl.
    + constructor; assumption.
    + constructor; [|apply IH; assumption].
      intros Hin. apply set_keys_in in Hin as [Hin| ->]; auto.
Qed.

Lemma get_set_same d k v : Dict.get (Dict.set d k v) k = Some v.
Proof.
  induction d as [|[k0 v0] d IH]; simpl.
  - now rewrite String.eqb_refl.
  - destruct (String.eqb_spec k k0) as [->|Hne]; simpl.
    + now rewrite String.eqb_refl.
    + destruct (String.eqb_spec k k0); [contradiction|exact IH].
Qed.

Lemma get_set_other d k v k' :
  k' <> k -> Dict.get (Dict.set d k v) k' = Dict.get d k'.
Proof.
  intros Hne.
  induction d as [|[k0 v0] d IH]; simpl.
  - destruct (String.eqb_spec k' k); [contradiction|reflexivity].
  - destruct (String.eqb_spec k k0) as [->|Hk]; simpl.
    + destruct (String.eqb_spec k' k0); [contradiction|reflexivity].
    + now rewrite IH.
Qed.

End DictFacts.

Section ComprehensionFacts.

Variables (A V : Type) (key : A -> string) (value : A -> V).

Local Abbreviation step := (fun d x => Dict.set d (key x) (value x)).

Lemma fold_set_keys xs : forall (d : Dict.t V) k,
  In k (Dict.keys (fold_left step xs d)) <->
  In k (Dict.keys d) \/ In k (map key xs).
Proof.
  induction xs as [|x xs IH]; simpl; intros d k.
  - intuition.
  - rewrite IH, set_keys_in. intuition.
Qed.

Lemma fold_set_NoDup xs : forall (d : Dict.t V),
  NoDup (Dict.keys d) -> NoDup (Dict.keys (fold_left step xs d)).
Proof.
  induction xs as [|x xs IH]; simpl; intros d Hd; [assumption|].
  apply IH, set_NoDup, Hd.
Qed.

Lemma fold_set_length xs : forall (d : Dict.t V),
  (List.length (fold_left step xs d) <= List.length d + List.length xs)%nat.
Proof.
  induction xs as [|x xs IH]; simpl; intros d; [lia|].
  specialize (IH (Dict.set d (key x) (value x))).
  pose proof (set_length _ d (key x) (value x)). lia.
Qed.

Lemma fold_set_get_absent xs : forall (d : Dict.t V) k,
  ~ In k (map key xs) ->
  Dict.get (fold_left step xs d) k = Dict.get d k.
Proof.
  induction xs as [|x xs IH]; simpl; intros d k Hk; [reflexivity|].
  rewrite IH by tauto.
  apply get_set_other. intros ->. apply Hk. now left.
Qed.

(** The last element stored under a key decides its value. *)
Lemma fold_set_get_last xs : forall (d : Dict.t V) l1 x l2,
  xs = (l1 ++ x :: l2)%list ->
  ~ In (key x) (map key l2) ->
  Dict.get (fold_left step xs d) (key x) = Some (value x).
Proof.
  intros d l1 x l2 -> Hlast.
  rewrite fold_left_app. simpl.
  rewrite fold_set_get_absent by assumption.
  apply get_set_same.
Qed.

(** Without repeated keys a comprehension is the list of its pairs. *)
Lemma fold_set_distinct xs : forall (d : Dict.t V),
  NoDup (map key xs) ->
  (forall k, In k (map key xs) -> ~ In k (Dict.keys d)) ->
  fold_left step xs d = (d ++ map (fun x => (key x, value x)) xs)%list.
Proof.
  induction xs as [|x xs IH]; simpl; intros d Hnd Hfresh.
  - now rewrite app_nil_r.
  - inversion Hnd as [|? ? Hx Hnd']; subst.
    rewrite IH; [|assumption|].
    + rewrite set_fresh by (apply Hfresh; now left).
      now rewrite <- app_assoc.
    + intros k Hk Hin. apply set_keys_in in Hin as [Hin| ->].
      * apply (Hfresh k); [now right|assumption].
      * contradiction.
Qed.

End ComprehensionFacts.

(** ** The loop over the request entries *)

Section LoopFacts.

Variable B : Type.
Variable env : Externals B.

Local Abbreviation fetch :=
  (fun '(uri, default) nodes =>
     node <- cio_get_call env uri default ;;
     ret (nodes ++ [node])%list).

Lemma fetch_trace entries : forall (acc : list Node) (w : World B),
  trace (snd (for_each entries fetch acc w)) =
  (trace w ++ lookup_events env entries (cio w))%list.
Proof.
  induction entries as [|[u d] rest IH]; simpl; intros acc w.
  - now rewrite app_nil_r.
  - unfold bind at 1. unfold bind at 1. unfold cio_get_call at 1.
    destruct (cio_get env u d (cio w)) as [[n|e] s1]; simpl.
    + rewrite IH. simpl. now rewrite <- app_assoc.
    + reflexivity.
Qed.

Lemma fetch_returns entries : forall (acc : list Node) (w : World B) nodes s',
  lookups env entries (cio w) nodes s' ->
  for_each entries fetch acc w =
  (Returned (acc ++ nodes)%list,
   {| cio := s';
      trace := (trace w ++ lookup_events env entries (cio w))%list |}).
Proof.
  induction entries as [|[u d] rest IH]; simpl; intros acc w nodes s' Hl.
  - inversion Hl; subst. rewrite !app_nil_r. now destruct w.
  - inversion Hl as [|? ? ? ? n s1 ns ? Hget Hrest]; subst.
    unfold bind at 1. unfold bind at 1. unfold cio_get_call at 1.
    rewrite Hget. simpl.
    rewrite (IH _ _ ns s') by exact Hrest. simpl.
    now rewrite <- !app_assoc.
Qed.

Lemma fetch_raises before : forall u d after (acc : list Node) (w : World B)
    nodes s1 e s2,
  lookups env before (cio w) nodes s1 ->
  cio_get env u d s1 = (Raised e, s2) ->
  fst (for_each (before ++ (u, d) :: after) fetch acc w) = Raised e.
Proof.
  induction before as [|[u0 d0] rest IH]; simpl;
    intros u d after acc w nodes s1 e s2 Hl Hget.
  - inversion Hl; subst.
    unfold bind at 1. unfold bind at 1. unfold cio_get_call at 1.
    now rewrite Hget.
  - inversion Hl as [|? ? ? ? n s0 ns ? Hget0 Hrest]; subst.
    unfold bind at 1. unfold bind at 1. unfold cio_get_call at 1.
    rewrite Hget0. simpl.
    eapply IH; [exact Hrest|exact Hget].
Qed.


Lemma lookups_length entries : forall s nodes s',
  lookups env entries s nodes s' -> List.length nodes = List.length entries.
Proof.
  induction entries as [|[u d] rest IH]; intros s nodes s' Hl;
    inversion Hl; subst; simpl; [reflexivity|].
  f_equal. eapply IH. eassumption.
Qed.

Lemma lookup_events_gets entries : forall s,
  Forall is_get (lookup_events env entries s).
Proof.
  induction entries as [|[u d] rest IH]; simpl; intros s; constructor.
  - now exists u, d, (CACHE_ON_GET s).
  - destruct (cio_get env u d s) as [[n|e] s1]; [apply IH|constructor].
Qed.

Lemma lookup_events_uncached entries : forall s,
  keeps_settings env ->
  CACHE_ON_GET s = false ->
  Forall ran_uncached (lookup_events env entries s).
Proof.
  induction entries as [|[u d] rest IH]; simpl; intros s Hkeep Hoff;
    constructor.
  - rewrite Hoff. now exists u, d.
  - pose proof (Hkeep u d s) as Hs.
    destruct (cio_get env u d s) as [[n|e] s1]; simpl in Hs.
    + apply IH; [assumption|congruence].
    + constructor.
Qed.

End LoopFacts.

(** ** The handlers *)

Section HandlerFacts.

Variable B : Type.
Variable env : Externals B.

(** The response [render_to_json] builds for [data]. *)
Local Abbreviation json_response data :=
  (HttpResponse_new (json_dumps env data) (Some "application/json") None).

Local Abbreviation configured w :=
  (snd (cio_conf_settings_configure (B:=B) false w)).

(** [post] is [get] run after the configuration call, with the no-cache
    headers put on whatever response comes back. *)
Lemma post_as_get request (w : World B) :
  NodesApi_post env request w =
  match NodesApi_get env request (configured w) with
  | (Returned response, w') =>
      (Returned (Cache.add_never_cache_headers (http_date_now env) response),
       w')
  | (Raised e, w') => (Raised e, w')
  end.
Proof.
  unfold NodesApi_post, NodesApi_get, never_cache.
  unfold bind at 1. unfold bind at 1. simpl.
  match goal with
  | |- context [bind ?m ?k ?w0] => destruct (bind m k w0) as [[r|e] w']
  end; reflexivity.
Qed.

Lemma get_returns request (w : World B) entries nodes s' :
  json_loads env (body request) = Returned (JObject entries) ->
  lookups env entries (cio w) nodes s' ->
  NodesApi_get env request w =
  (Returned (json_response (Dict.comprehension uri node_content nodes)),
   {| cio := s';
      trace := (trace w ++ lookup_events env entries (cio w))%list |}).
Proof.
  intros Hbody Hl.
  unfold NodesApi_get, bind, json_loads_call. rewrite Hbody. simpl.
  unfold Dict.items.
  pose proof (fetch_returns _ env _ [] w _ _ Hl) as Hloop. unfold bind in Hloop.
  rewrite Hloop. reflexivity.
Qed.

Lemma get_raises request (w : World B) e :
  fails_with env request (cio w) e ->
  fst (NodesApi_get env request w) = Raised e.
Proof.
  intros [Hbody|(before & u & d & after & nodes & s1 & s2 & Hbody & Hl & Hget)];
    unfold NodesApi_get, bind, json_loads_call; rewrite Hbody; simpl.
  - reflexivity.
  - unfold Dict.items.
    pose proof (fetch_raises _ env _ u d after [] w _ _ _ _ Hl Hget) as Hloop.
    unfold bind in Hloop.
    match goal with
    | |- context [for_each ?xs ?f ?a ?w0] =>
        destruct (for_each xs f a w0) as [[r|e'] w'] eqn:Hrun
    end; simpl in *; [discriminate|congruence].
Qed.

(** Whatever [get] does, it adds only lookups to the trace. *)
Lemma get_trace request (w : World B) :
  exists gets,
    trace (snd (NodesApi_get env request w)) = (trace w ++ gets)%list /\
    Forall is_get gets /\
    (keeps_settings env -> CACHE_ON_GET (cio w) = false ->
     Forall ran_uncached gets).
Proof.
  unfold NodesApi_get, bind, json_loads_call.
  destruct (json_loads env (body request)) as [loaded|e]; simpl.
  2:{ exists []. rewrite app_nil_r. repeat split; constructor. }
  destruct loaded as [| | | | |entries]; simpl;
    try (exists []; rewrite app_nil_r; repeat split; constructor).
  unfold Dict.items.
  pose proof (fetch_trace _ env entries [] w) as Ht. unfold bind in Ht.
  exists (lookup_events env entries (cio w)).
  split; [|split].
  - match goal with
    | |- context [for_each ?xs ?f ?a ?w0] =>
        destruct (for_each xs f a w0) as [[r|e'] w'] eqn:Hrun
    end; simpl in *; exact Ht.
  - apply lookup_events_gets.
  - intros Hkeep Hoff. now apply lookup_events_uncached.
Qed.

Lemma fetch_returned_inv entries : forall (acc : list Node) (w : World B)
    result w',
  for_each entries
    (fun '(uri, default) nodes =>
       node <- cio_get_call env uri default ;;
       ret (nodes ++ [node])%list) acc w = (Returned result, w') ->
  exists nodes,
    result = (acc ++ nodes)%list /\
    lookups env entries (cio w) nodes (cio w').
Proof.
  induction entries as [|[u d] rest IH]; simpl; intros acc w result w' Hrun.
  - inversion Hrun; subst. exists []. rewrite app_nil_r.
    split; [reflexivity|constructor].
  - unfold bind at 1 in Hrun. unfold bind at 1 in Hrun.
    unfold cio_get_call at 1 in Hrun.
    destruct (cio_get env u d (cio w)) as [[n|e] s1] eqn:Hget; simpl in Hrun;
      [|discriminate].
    apply IH in Hrun as (nodes & -> & Hl). simpl in Hl.
    exists (n :: nodes). rewrite <- app_assoc. split; [reflexivity|].
    econstructor; eassumption.
Qed.

(** A response of [get] comes from a JSON object all of whose lookups
    returned. *)
Lemma get_returned_inv request (w : World B) response w' :
  NodesApi_get env request w = (Returned response, w') ->
  exists entries nodes,
    json_loads env (body request) = Returned (JObject entries) /\
    lookups env entries (cio w) nodes (cio w') /\
    response = json_response (Dict.comprehension uri node_content nodes).
Proof.
  unfold NodesApi_get, bind, json_loads_call.
  destruct (json_loads env (body request)) as [loaded|e]; simpl;
    [|discriminate].
  destruct loaded as [| | | | |entries]; simpl; try discriminate.
  unfold Dict.items.
  match goal with
  | |- context [for_each ?xs ?f ?a ?w0] =>
      destruct (for_each xs f a w0) as [[r|e'] w1] eqn:Hrun
  end; simpl; [|discriminate].
  intros Heq. inversion Heq; subst.
  apply fetch_returned_inv in Hrun as (nodes & -> & Hl).
  exists entries, nodes. repeat split; assumption.
Qed.

Lemma serve_embed_get request :
  method request = GET ->
  serve (EmbedApi env) request = EmbedApi_get env request.
Proof.
  intros Hm. unfold serve, CsrfViewMiddleware_process_view, EmbedApi. simpl.
  rewrite Hm. unfold View_dispatch. now rewrite Hm.
Qed.

Lemma calls_of_app t1 t2 :
  calls_of (t1 ++ t2) = (calls_of t1 ++ calls_of t2)%list.
Proof. apply flat_map_app. Qed.

End HandlerFacts.

(** ** The demonstration store *)

Lemma demo_keeps_settings : keeps_settings Demo.env.
Proof.
  intros u d s. simpl. unfold Demo.get.
  destruct (String.eqb u ""); [reflexivity|].
  destruct (Dict.get (backend s) (Demo.canonical u)); [reflexivity|].
  destruct (CACHE_ON_GET s) eqn:Hc; simpl; congruence.
Qed.

(** * The claims *)

Section Claims.

Variable B : Type.
Variable env : Externals B.

Local Abbreviation configured w :=
  (snd (cio_conf_settings_configure (B:=B) false w)).

Local Abbreviation never_cache_directives :=
  [("max-age", CCNumber 0); ("no-cache", CCFlag); ("no-store", CCFlag);
   ("must-revalidate", CCFlag); ("private", CCFlag)].


(** C2.  Whatever a POST /nodes request does, the first library call it
    makes switches [CACHE_ON_GET] off, every later call is a lookup, and,
    the library leaving its own settings alone, every lookup runs with
    get-caching off. *)
Theorem post_nodes_disables_get_caching request (w : World B) :
  exists gets,
    trace (snd (NodesApi_post env request w)) =
      (trace w ++ EvConfigure false :: gets)%list /\
    Forall is_get gets /\
    (keeps_settings env -> Forall ran_uncached gets).
Proof.
  destruct (get_trace _ env request (configured w)) as (gets & Ht & Hg & Hu).
  exists gets. split; [|split].
  - rewrite post_as_get.
    destruct (NodesApi_get env request (configured w)) as [[r|e] w'];
      simpl in *; rewrite Ht; now rewrite <- app_assoc.
  - exact Hg.
  - intros Hkeep. now apply Hu.
Qed.

(** C3.  A GET /embed request that fails the permission check is answered
    by [EmbedApi.get] with status 204 and an empty body, not with a 403. *)
Theorem embed_without_permission request (w : World B) :
  method request = GET ->
  has_permission env request = false ->
  exists response,
    serve (EmbedApi env) request w = (Returned response, w) /\
    EmbedApi_get env request w = (Returned response, w) /\
    status_code response = 204 /\
    content response = "" /\
    status_code response <> 403.
Proof.
  intros Hm Hperm. rewrite serve_embed_get by assumption.
  unfold EmbedApi_get. rewrite Hperm.
  eexists. repeat split. simpl. discriminate.
Qed.

(** C4.  A GET /embed request that passes the permission check is answered
    with what [render_embed(request=request)] returns: an HTTP 200 response
    whose body is the rendered embed HTML. *)
Theorem embed_with_permission request (w : World B) :
  method request = GET ->
  has_permission env request = true ->
  serve (EmbedApi env) request w = render_embed env request w /\
  exists response,
    render_embed env request w = (Returned response, w) /\
    status_code response = 200 /\
    content response = embed_html env request.
Proof.
  intros Hm Hperm. rewrite serve_embed_get by assumption.
  unfold EmbedApi_get. rewrite Hperm.
  split; [reflexivity|]. eexists. repeat split.
Qed.

(** C5.  Every response the POST /nodes handler returns carries the
    never-cache headers: [Cache-Control] with [max-age=0], [no-cache],
    [no-store], [must-revalidate] and [private], and an [Expires] date. *)
Theorem post_nodes_never_cached request (w : World B) response w' :
  NodesApi_post env request w = (Returned response, w') ->
  cache_control response = never_cache_directives /\
  Dict.get (cache_control response) "no-cache" = Some CCFlag /\
  Dict.get (headers response) "Expires" = Some (http_date_now env).
Proof.
  rewrite post_as_get.
  destruct (NodesApi_get env request (configured w)) as [[r|e] w1] eqn:Hget;
    [|discriminate].
  intros Heq. inversion Heq; subst.
  apply get_returned_inv in Hget as (entries & nodes & _ & _ & ->).
  repeat split.
Qed.

(** C6.  Whatever methods a subclass of [APIView] defines and whatever the
    request, the CSRF middleware lets the request through to [dispatch]:
    no request is rejected for a missing or invalid token.  [NodesApi] is
    such a subclass. *)
Theorem api_views_are_csrf_exempt (methods : http_method -> option (handler B))
    request (w : World B) :
  CsrfViewMiddleware_process_view (APIView methods) request = None /\
  serve (APIView methods) request w = View_dispatch methods request w /\
  serve (NodesApi env) request w = dispatch (NodesApi env) request w.
Proof. repeat split. Qed.

(** C7.  When the body of a /nodes request is not valid JSON, or one of its
    lookups raises, the handler (GET or POST) ends with that exception and
    returns no response. *)
Theorem nodes_errors_propagate request (w : World B) e :
  (fails_with env request (cio w) e ->
   fst (NodesApi_get env request w) = Raised e) /\
  (fails_with env request (uncached (cio w)) e ->
   fst (NodesApi_post env request w) = Raised e).
Proof.
  split; intros Hfail.
  - now apply get_raises.
  - rewrite post_as_get.
    pose proof (get_raises _ env request (configured w) e Hfail) as Hget.
    destruct (NodesApi_get env request (configured w)) as [[r|e'] w'];
      simpl in *; [discriminate|assumption].
Qed.

(** C8 (amended).  /embed serves GET: the rendered embed HTML when the
    permission check succeeds, HTTP 204 with an empty body otherwise.
    [EmbedApi] has no [post]: a POST request is answered without the
    permission check, with HTTP 405 by [dispatch], or with HTTP 403 by the
    CSRF middleware when its token is missing or invalid. *)
Theorem embed_serves_get_only request (w : World B) :
  (method request = GET ->
   serve (EmbedApi env) request w =
   if has_permission env request
   then (Returned (HttpResponse_new (embed_html env request) None None), w)
   else (Returned (HttpResponse_new "" None (Some 204)), w)) /\
  (method request = POST ->
   serve (EmbedApi env) request w =
   (Returned
      (if csrf_token_valid request
       then HttpResponseNotAllowed ["GET"; "HEAD"; "OPTIONS"]
       else HttpResponseForbidden "CSRF verification failed."), w)).
Proof.
  split; intros Hm.
  - rewrite serve_embed_get by assumption. unfold EmbedApi_get.
    now destruct (has_permission env request).
  - unfold serve, CsrfViewMiddleware_process_view, EmbedApi. simpl.
    rewrite Hm. destruct (csrf_token_valid request); [|reflexivity].
    unfold View_dispatch. now rewrite Hm.
Qed.

(** C9.  On every request GET /nodes and POST /nodes run the same code from
    the body on: POST is GET started after the configuration call, with the
    never-cache headers added to the response.  They make the same lookups
    in the same order, end in the same state, raise the same exception or
    return responses with the same status and body. *)
Theorem get_nodes_matches_post request (w : World B) :
  NodesApi_post env request w =
    match NodesApi_get env request (configured w) with
    | (Returned response, w') =>
        (Returned
           (Cache.add_never_cache_headers (http_date_now env) response), w')
    | (Raised e, w') => (Raised e, w')
    end /\
  snd (NodesApi_post env request w) =
    snd (NodesApi_get env request (configured w)) /\
  match fst (NodesApi_get env request (configured w)),
        fst (NodesApi_post env request w) with
  | Returned r, Returned r' =>
      status_code r' = status_code r /\
      content r' = content r /\
      Dict.get (headers r') "Content-Type" =
        Dict.get (headers r) "Content-Type" /\
      cache_control r = [] /\
      cache_control r' = never_cache_directives
  | Raised e, Raised e' => e = e'
  | _, _ => False
  end.
Proof.
  split; [apply post_as_get|]. rewrite post_as_get.
  destruct (NodesApi_get env request (configured w)) as [[r|e] w'] eqn:Hget;
    simpl; split; try reflexivity.
  apply get_returned_inv in Hget as (entries & nodes & _ & _ & ->).
  repeat split.
Qed.

(** C10.  A response of /nodes (GET or POST) is the JSON text of a
    dictionary keyed by the [.uri] of the nodes the lookups returned, not
    by the request URIs: its keys are exactly those [.uri]s, each once; the
    content kept under a key is that of the last node with that [.uri]; and
    it has at most as many entries as the request. *)
Theorem nodes_response_keyed_by_node_uri request (w : World B) response w' :
  NodesApi_get env request w = (Returned response, w') \/
  NodesApi_post env request w = (Returned response, w') ->
  exists entries nodes,
    json_loads env (body request) = Returned (JObject entries) /\
    (lookups env entries (cio w) nodes (cio w') \/
     lookups env entries (uncached (cio w)) nodes (cio w')) /\
    List.length nodes = List.length entries /\
    let data := Dict.comprehension uri node_content nodes in
    content response = json_dumps env data /\
    (forall k, In k (Dict.keys data) <-> In k (map uri nodes)) /\
    NoDup (Dict.keys data) /\
    (forall before n after,
        nodes = (before ++ n :: after)%list ->
        ~ In (uri n) (map uri after) ->
        Dict.get data (uri n) = Some (node_content n)) /\
    (List.length data <= List.length entries)%nat.
Proof.
  intros Hrun.
  assert (exists entries nodes,
    json_loads env (body request) = Returned (JObject entries) /\
    (lookups env entries (cio w) nodes (cio w') \/
     lookups env entries (uncached (cio w)) nodes (cio w')) /\
    content response =
      json_dumps env (Dict.comprehension uri node_content nodes))
    as (entries & nodes & Hbody & Hl & Hcontent).
  { destruct Hrun as [Hget|Hpost].
    - apply get_returned_inv in Hget as (entries & nodes & Hb & Hl & ->).
      exists entries, nodes. auto.
    - rewrite post_as_get in Hpost.
      destruct (NodesApi_get env request (configured w)) as [[r|e] w1]
        eqn:Hget; [|discriminate].
      inversion Hpost; subst.
      apply get_returned_inv in Hget as (entries & nodes & Hb & Hl & ->).
      exists entries, nodes. auto. }
  assert (List.length nodes = List.length entries) as Hlen
    by (destruct Hl as [Hl|Hl]; exact (lookups_length _ env _ _ _ _ Hl)).
  exists entries, nodes. repeat split; try assumption.
  - intros Hin. apply fold_set_keys in Hin as [[]|Hin]. exact Hin.
  - intros Hin. apply fold_set_keys. now right.
  - apply fold_set_NoDup. constructor.
  - intros before n after Hnodes Hlast.
    exact (fold_set_get_last _ _ uri node_content nodes Dict.empty before n
             after Hnodes Hlast).
  - rewrite <- Hlen.
    exact (fold_set_length _ _ uri node_content nodes Dict.empty).
Qed.

End Claims.

(** * The claims on the demonstration store *)



(** C2, witness: two lookups, both after the configuration call and both
    with get-caching off, although the store started with it on. *)
Lemma post_nodes_disables_get_caching_witness :
  CACHE_ON_GET (cio Demo.world0) = true /\
  exists gets,
    trace (snd (NodesApi_post Demo.env Demo.post_same Demo.world0))
      = EvConfigure false :: gets /\
    Forall is_get gets /\
    Forall ran_uncached gets.
Proof.
  split; [reflexivity|].
  destruct (post_nodes_disables_get_caching (Dict.t json) Demo.env
              Demo.post_same Demo.world0) as (gets & Htrace & Hgets & Hoff).
  exists gets. split; [exact Htrace|]. split; [exact Hgets|].
  exact (Hoff demo_keeps_settings).
Defined.

(** C3, witness: a visitor without permission gets 204. *)
Lemma embed_without_permission_witness :
  exists response,
    serve (EmbedApi Demo.env) (Demo.request GET "" false "anyone") Demo.world0
      = (Returned response, Demo.world0) /\
    EmbedApi_get Demo.env (Demo.request GET "" false "anyone") Demo.world0
      = (Returned response, Demo.world0) /\
    status_code response = 204 /\
    content response = "" /\
    status_code response <> 403.
Proof.
  apply (embed_without_permission (Dict.t json) Demo.env
           (Demo.request GET "" false "anyone") Demo.world0);
    reflexivity.
Defined.

(** C4, witness: a member of staff gets the embed HTML. *)
Lemma embed_with_permission_witness :
  serve (EmbedApi Demo.env) (Demo.request GET "" false "staff") Demo.world0
    = render_embed Demo.env (Demo.request GET "" false "staff") Demo.world0 /\
  exists response,
    render_embed Demo.env (Demo.request GET "" false "staff") Demo.world0
      = (Returned response, Demo.world0) /\
    status_code response = 200 /\
    content response = "<div id=djedi-embed></div>".
Proof.
  apply (embed_with_permission (Dict.t json) Demo.env
           (Demo.request GET "" false "staff") Demo.world0);
    reflexivity.
Defined.

(** C5, witness: the response to [{"a/uri": "default-a"}] is marked
    no-cache. *)
Lemma post_nodes_never_cached_witness :
  exists response w',
    NodesApi_post Demo.env Demo.post_a Demo.world0 = (Returned response, w') /\
    Dict.get (cache_control response) "no-cache" = Some CCFlag /\
    Dict.get (headers response) "Expires"
      = Some "Thu, 01 Jan 1970 00:00:00 GMT".
Proof.
  eexists. eexists. split; [vm_compute; reflexivity|].
  exact (proj2 (post_nodes_never_cached (Dict.t json) Demo.env Demo.post_a
                  Demo.world0 _ _ eq_refl)).
Defined.

(** C7, witness: a malformed body on GET, a lookup that raises on POST. *)
Lemma nodes_errors_propagate_witness :
  fst (NodesApi_get Demo.env (Demo.request GET "{oops" false "anyone")
         Demo.world0)
    = Raised (JSONDecodeError "Expecting value") /\
  fst (NodesApi_post Demo.env
         (Demo.request POST Demo.body_bad_uri false "anyone") Demo.world0)
    = Raised (LibraryError "invalid uri").
Proof.
  split.
  - apply (proj1 (nodes_errors_propagate (Dict.t json) Demo.env
                    (Demo.request GET "{oops" false "anyone") Demo.world0
                    (JSONDecodeError "Expecting value"))).
    left. reflexivity.
  - apply (proj2 (nodes_errors_propagate (Dict.t json) Demo.env
                    (Demo.request POST Demo.body_bad_uri false "anyone")
                    Demo.world0 (LibraryError "invalid uri"))).
    right.
    exists [("a/uri", JString "first")], "", (JString "second"),
      [("b/uri", JString "third")],
      [{| uri := "i18n://sv-se@a/uri.txt"; node_content := JString "first" |}],
      (uncached (cio Demo.world0)), (uncached (cio Demo.world0)).
    split; [reflexivity|]. split; [|reflexivity].
    econstructor; [reflexivity|constructor].
Defined.

(** C8, witness: GET with and without a token is served; POST is not. *)
Lemma embed_serves_get_only_witness :
  serve (EmbedApi Demo.env) (Demo.request GET "" false "staff") Demo.world0
    = (Returned (HttpResponse_new "<div id=djedi-embed></div>" None None),
       Demo.world0) /\
  serve (EmbedApi Demo.env) Demo.staff_post Demo.world0
    = (Returned (HttpResponseNotAllowed ["GET"; "HEAD"; "OPTIONS"]),
       Demo.world0).
Proof.
  split.
  - apply (proj1 (embed_serves_get_only (Dict.t json) Demo.env
                    (Demo.request GET "" false "staff") Demo.world0)).
    reflexivity.
  - apply (proj2 (embed_serves_get_only (Dict.t json) Demo.env
                    Demo.staff_post Demo.world0)).
    reflexivity.
Defined.

(** C8, counterexample: a POST /embed from a member of staff, with a valid
    token, passes the permission check and still gets HTTP 405 instead of the
    embed HTML. *)
Lemma embed_post_is_not_served :
  method Demo.staff_post = POST /\
  has_permission Demo.env Demo.staff_post = true /\
  serve (EmbedApi Demo.env) Demo.staff_post Demo.world0
    = (Returned (HttpResponseNotAllowed ["GET"; "HEAD"; "OPTIONS"]),
       Demo.world0) /\
  status_code (HttpResponseNotAllowed ["GET"; "HEAD"; "OPTIONS"]) = 405 /\
  serve (EmbedApi Demo.env) Demo.staff_post Demo.world0
    <> render_embed Demo.env Demo.staff_post Demo.world0.
Proof.
  repeat split. discriminate.
Qed.

(** C10, witness: ["a/uri"] and ["a/uri.txt"] resolve to the same node URI;
    the response has one entry, with the content of the later one. *)
Lemma nodes_response_keyed_by_node_uri_witness :
  exists response w',
    NodesApi_post Demo.env Demo.post_same Demo.world0
      = (Returned response, w') /\
    content response =
      json_dumps Demo.env [("i18n://sv-se@a/uri.txt", JString "second")] /\
    exists entries nodes,
      json_loads Demo.env (body Demo.post_same)
        = Returned (JObject entries) /\
      List.length nodes = List.length entries /\
      (List.length (Dict.comprehension uri node_content nodes)
       <= List.length entries)%nat.
Proof.
  eexists. eexists. split; [vm_compute; reflexivity|].
  split; [reflexivity|].
  destruct (nodes_response_keyed_by_node_uri (Dict.t json) Demo.env
              Demo.post_same Demo.world0 _ _ (or_intror eq_refl))
    as (entries & nodes & Hbody & _ & Hlen & _ & _ & _ & _ & Hle).
  exists entries, nodes. repeat split; assumption.
Defined.

(** * Further properties of the handlers *)

(** ** More on the loop and on [get] *)

Section MoreLoopFacts.

Variable B : Type.
Variable env : Externals B.

Local Abbreviation fetch :=
  (fun '(uri, default) nodes =>
     node <- cio_get_call env uri default ;;
     ret (nodes ++ [node])%list).

Lemma fetch_keeps_flag entries : forall (acc : list Node) (w : World B),
  keeps_settings env ->
  CACHE_ON_GET (cio (snd (for_each entries fetch acc w))) =
  CACHE_ON_GET (cio w).
Proof.
  induction entries as [|[u d] rest IH]; simpl; intros acc w Hkeep;
    [reflexivity|].
  unfold bind at 1. unfold bind at 1. unfold cio_get_call at 1.
  pose proof (Hkeep u d (cio w)) as Hs.
  destruct (cio_get env u d (cio w)) as [[n|e] s1]; simpl in *.
  - rewrite IH by assumption. exact Hs.
  - exact Hs.
Qed.

Lemma fetch_raises_full before : forall u d after (acc : list Node)
    (w : World B) nodes s1 e s2,
  lookups env before (cio w) nodes s1 ->
  cio_get env u d s1 = (Raised e, s2) ->
  for_each (before ++ (u, d) :: after) fetch acc w =
  (Raised e,
   {| cio := s2;
      trace :=
        (trace w ++ lookup_events env (before ++ (u, d) :: after) (cio w))
        %list |}).
Proof.
  induction before as [|[u0 d0] rest IH]; simpl;
    intros u d after acc w nodes s1 e s2 Hl Hget.
  - inversion Hl; subst.
    unfold bind at 1. unfold bind at 1. unfold cio_get_call at 1.
    now rewrite Hget.
  - inversion Hl as [|? ? ? ? n s0 ns ? Hget0 Hrest]; subst.
    unfold bind at 1. unfold bind at 1. unfold cio_get_call at 1.
    rewrite Hget0. simpl.
    rewrite (IH u d after _ _ ns s1 e s2) by assumption. simpl.
    now rewrite <- app_assoc.
Qed.


Lemma lookup_events_failing before : forall u d after s nodes s1 e s2,
  lookups env before s nodes s1 ->
  cio_get env u d s1 = (Raised e, s2) ->
  calls_of (lookup_events env (before ++ (u, d) :: after) s) =
  (before ++ [(u, d)])%list.
Proof.
  induction before as [|[u0 d0] rest IH]; simpl;
    intros u d after s nodes s1 e s2 Hl Hget.
  - inversion Hl; subst. now rewrite Hget.
  - inversion Hl as [|? ? ? ? n s0 ns ? Hget0 Hrest]; subst.
    rewrite Hget0. f_equal. eapply IH; eassumption.
Qed.

Lemma lookup_events_prefix entries : forall s,
  exists k, calls_of (lookup_events env entries s) = firstn k entries.
Proof.
  induction entries as [|[u d] rest IH]; simpl; intros s.
  - now exists 0%nat.
  - destruct (cio_get env u d s) as [[n|e] s1].
    + destruct (IH s1) as (k & Hk). exists (S k). simpl. now rewrite Hk.
    + now exists 1%nat.
Qed.

Lemma lookup_events_flag entries : forall s,
  keeps_settings env ->
  Forall (ran_with (CACHE_ON_GET s)) (lookup_events env entries s).
Proof.
  induction entries as [|[u d] rest IH]; simpl; intros s Hkeep; constructor.
  - now exists u, d.
  - pose proof (Hkeep u d s) as Hs.
    destruct (cio_get env u d s) as [[n|e] s1]; simpl in Hs.
    + rewrite <- Hs. now apply IH.
    + constructor.
Qed.

(** What [get] adds to the trace, whatever its outcome. *)
Lemma get_trace_events request (w : World B) :
  trace (snd (NodesApi_get env request w)) =
  (trace w ++
   match json_loads env (body request) with
   | Returned (JObject entries) => lookup_events env entries (cio w)
   | _ => []
   end)%list.
Proof.
  unfold NodesApi_get, bind, json_loads_call.
  destruct (json_loads env (body request)) as [loaded|e]; simpl;
    [|now rewrite app_nil_r].
  destruct loaded as [| | | | |entries]; simpl; try now rewrite app_nil_r.
  unfold Dict.items.
  pose proof (fetch_trace _ env entries [] w) as Ht. unfold bind in Ht.
  match goal with
  | |- context [for_each ?xs ?f ?a ?w0] =>
      destruct (for_each xs f a w0) as [[r|e'] w']
  end; simpl in *; exact Ht.
Qed.

Lemma get_keeps_flag request (w : World B) :
  keeps_settings env ->
  CACHE_ON_GET (cio (snd (NodesApi_get env request w))) =
  CACHE_ON_GET (cio w).
Proof.
  intros Hkeep. unfold NodesApi_get, bind, json_loads_call.
  destruct (json_loads env (body request)) as [loaded|e]; simpl;
    [|reflexivity].
  destruct loaded as [| | | | |entries]; simpl; try reflexivity.
  unfold Dict.items.
  pose proof (fetch_keeps_flag entries [] w Hkeep) as Hf. unfold bind in Hf.
  match goal with
  | |- context [for_each ?xs ?f ?a ?w0] =>
      destruct (for_each xs f a w0) as [[r|e'] w']
  end; simpl in *; exact Hf.
Qed.

Lemma get_raises_full request (w : World B) before u d after nodes s1 e s2 :
  json_loads env (body request)
    = Returned (JObject (before ++ (u, d) :: after)) ->
  lookups env before (cio w) nodes s1 ->
  cio_get env u d s1 = (Raised e, s2) ->
  NodesApi_get env request w =
  (Raised e,
   {| cio := s2;
      trace :=
        (trace w ++ lookup_events env (before ++ (u, d) :: after) (cio w))
        %list |}).
Proof.
  intros Hbody Hl Hget.
  unfold NodesApi_get, bind, json_loads_call. rewrite Hbody. simpl.
  unfold Dict.items.
  pose proof (fetch_raises_full before u d after [] w nodes s1 e s2 Hl Hget)
    as Hloop.
  unfold bind in Hloop. now rewrite Hloop.
Qed.


Lemma post_state request (w : World B) :
  snd (NodesApi_post env request w) =
  snd (NodesApi_get env request (after_configure w)).
Proof.
  rewrite post_as_get. unfold after_configure, uncached. simpl.
  match goal with
  | |- context [NodesApi_get ?e ?r ?w0] =>
      destruct (NodesApi_get e r w0) as [[r0|e0] w']
  end; reflexivity.
Qed.

Lemma serve_nodes_post request :
  method request = POST ->
  serve (NodesApi env) request = NodesApi_post env request.
Proof.
  intros Hm. unfold serve, NodesApi. simpl.
  unfold View_dispatch. now rewrite Hm.
Qed.

Lemma serve_nodes_get request :
  method request = GET ->
  serve (NodesApi env) request = NodesApi_get env request.
Proof.
  intros Hm. unfold serve, NodesApi. simpl.
  unfold View_dispatch. now rewrite Hm.
Qed.

End MoreLoopFacts.

Lemma comprehension_keys (A V : Type) (key : A -> string) (value : A -> V)
    xs : forall (d : Dict.t V),
  Dict.keys (fold_left (fun d x => Dict.set d (key x) (value x)) xs d) =
  (Dict.keys d ++ first_occurrences (Dict.keys d) (map key xs))%list.
Proof.
  induction xs as [|x xs IH]; simpl; intros d.
  - now rewrite app_nil_r.
  - rewrite IH. clear IH.
    assert (Dict.keys (Dict.set d (key x) (value x)) =
            if existsb (String.eqb (key x)) (Dict.keys d)
            then Dict.keys d
            else (Dict.keys d ++ [key x])%list) as ->.
    { induction d as [|[k0 v0] d IHd]; simpl; [reflexivity|].
      destruct (String.eqb (key x) k0); simpl; [reflexivity|].
      rewrite IHd.
      now destruct (existsb (String.eqb (key x)) (Dict.keys d)). }
    destruct (existsb (String.eqb (key x)) (Dict.keys d)); [reflexivity|].
    now rewrite <- app_assoc.
Qed.

(** ** What a user of /nodes and /embed can rely on *)

Section Further.

Variable B : Type.
Variable env : Externals B.

Local Abbreviation json_response data :=
  (HttpResponse_new (json_dumps env data) (Some "application/json") None).

Local Abbreviation no_items :=
  (AttributeError "object has no attribute 'items'").

(** X1.  A body that is valid JSON but not an object (an array, a string, a
    number, [true], [false], [null]) makes both handlers raise
    [AttributeError] at [.items()]: GET has then done nothing at all, POST
    only its configuration call; no lookup is made. *)
Theorem nodes_reject_non_object_body request (w : World B) v :
  json_loads env (body request) = Returned v ->
  not_object v ->
  NodesApi_get env request w = (Raised no_items, w) /\
  NodesApi_post env request w = (Raised no_items, after_configure w).
Proof.
  intros Hbody Hv.
  assert (forall w0 : World B,
             NodesApi_get env request w0 = (Raised no_items, w0)) as Hget.
  { intros w0. unfold NodesApi_get, bind, json_loads_call. rewrite Hbody.
    destruct v; simpl in *; try reflexivity. contradiction. }
  split; [apply Hget|].
  rewrite post_as_get. simpl.
  change {| cio := {| CACHE_ON_GET := false; backend := backend (cio w) |};
            trace := (trace w ++ [EvConfigure false])%list |}
    with (after_configure w).
  now rewrite Hget.
Qed.

(** X2.  When a lookup raises, the handler stops there: the entries after it
    are never looked up, and the effects of the lookups before it stay (the
    library is left in the state the failing call produced). *)
Theorem nodes_stop_at_first_failure request (w : World B)
    before u d after nodes s1 e s2 :
  json_loads env (body request)
    = Returned (JObject (before ++ (u, d) :: after)) ->
  cio_get env u d s1 = (Raised e, s2) ->
  (lookups env before (cio w) nodes s1 ->
   exists w',
     NodesApi_get env request w = (Raised e, w') /\
     cio w' = s2 /\
     calls_of (trace w') =
       (calls_of (trace w) ++ before ++ [(u, d)])%list) /\
  (lookups env before (uncached (cio w)) nodes s1 ->
   exists w',
     NodesApi_post env request w = (Raised e, w') /\
     cio w' = s2 /\
     calls_of (trace w') =
       (calls_of (trace w) ++ before ++ [(u, d)])%list).
Proof.
  intros Hbody Hfail. split; intros Hl.
  - rewrite (get_raises_full _ env request w before u d after nodes s1 e s2)
      by assumption.
    eexists. split; [reflexivity|]. split; [reflexivity|]. simpl.
    rewrite calls_of_app.
    now rewrite (lookup_events_failing _ env before u d after _ nodes s1 e s2).
  - rewrite post_as_get.
    rewrite (get_raises_full _ env request _ before u d after nodes s1 e s2)
      by assumption.
    eexists. split; [reflexivity|]. split; [reflexivity|]. simpl.
    rewrite !calls_of_app.
    rewrite (lookup_events_failing _ env before u d after _ nodes s1 e s2)
      by assumption.
    simpl. now rewrite app_nil_r.
Qed.


(** X4.  Whatever the outcome, the lookups a request causes are a prefix of
    the entries of its body, in their order; a body that is not a JSON
    object causes none. *)
Theorem nodes_look_up_only_request_entries request (w : World B) :
  exists made_get made_post,
    calls_of (trace (snd (NodesApi_get env request w))) =
      (calls_of (trace w) ++ made_get)%list /\
    calls_of (trace (snd (NodesApi_post env request w))) =
      (calls_of (trace w) ++ made_post)%list /\
    match json_loads env (body request) with
    | Returned (JObject entries) =>
        (exists k, made_get = firstn k entries) /\
        (exists k, made_post = firstn k entries)
    | _ => made_get = [] /\ made_post = []
    end.
Proof.
  rewrite post_state, !get_trace_events. simpl.
  rewrite !calls_of_app. simpl.
  rewrite (app_nil_r (calls_of (trace w))).
  destruct (json_loads env (body request)) as [loaded|e];
    [|exists [], []; repeat split; reflexivity].
  destruct loaded as [| | | | |entries];
    try (exists [], []; repeat split; reflexivity).
  eexists. eexists. split; [reflexivity|]. split; [reflexivity|].
  split; apply lookup_events_prefix.
Qed.

(** X5.  A POST to /nodes leaves get-caching switched off when it ends,
    whether it returned or raised and whatever its token and body: the
    setting is not restored. *)
Theorem post_nodes_leaves_get_caching_off request (w : World B) :
  keeps_settings env ->
  method request = POST ->
  CACHE_ON_GET (cio (snd (serve (NodesApi env) request w))) = false.
Proof.
  intros Hkeep Hm.
  rewrite serve_nodes_post by assumption.
  rewrite post_state. now rewrite get_keeps_flag.
Qed.

(** X6.  GET /nodes makes no configuration call: its lookups all run under
    the setting the library had when the request came in, and that setting
    is still there when it ends. *)
Theorem get_nodes_runs_under_current_setting request (w : World B) :
  keeps_settings env ->
  CACHE_ON_GET (cio (snd (NodesApi_get env request w))) =
    CACHE_ON_GET (cio w) /\
  exists gets,
    trace (snd (NodesApi_get env request w)) = (trace w ++ gets)%list /\
    Forall (ran_with (CACHE_ON_GET (cio w))) gets.
Proof.
  intros Hkeep. split; [now apply get_keeps_flag|].
  rewrite get_trace_events. eexists. split; [reflexivity|].
  destruct (json_loads env (body request)) as [loaded|e]; [|constructor].
  destruct loaded; try constructor.
  now apply lookup_events_flag.
Qed.


(** X8.  When the nodes that come back have pairwise different [.uri]s, the
    response holds one entry per request entry, in request order: the pairs
    of each node's [.uri] and content. *)
Theorem nodes_distinct_uris_keep_order request (w : World B)
    entries nodes s' :
  json_loads env (body request) = Returned (JObject entries) ->
  lookups env entries (cio w) nodes s' ->
  NoDup (map uri nodes) ->
  fst (NodesApi_get env request w) =
    Returned (json_response (map (fun n => (uri n, node_content n)) nodes)) /\
  List.length (map (fun n => (uri n, node_content n)) nodes) =
    List.length entries.
Proof.
  intros Hbody Hl Hnd.
  rewrite (get_returns _ env request w entries nodes s') by assumption.
  simpl. split.
  - unfold Dict.comprehension, Dict.empty.
    rewrite fold_set_distinct; [reflexivity|assumption|intros k _ []].
  - rewrite length_map. exact (lookups_length _ env _ _ _ _ Hl).
Qed.

(** X9.  The keys of the response dictionary are the [.uri]s of the nodes,
    without repetition, in the order in which they first occur. *)
Theorem nodes_keys_in_order_of_first_occurrence (nodes : list Node) :
  Dict.keys (Dict.comprehension uri node_content nodes) =
  first_occurrences [] (map uri nodes).
Proof.
  unfold Dict.comprehension.
  now rewrite comprehension_keys.
Qed.

(** X10.  /nodes answers PUT, PATCH, DELETE, TRACE and unknown methods with
    HTTP 405 and the list of what it allows, without touching the library:
    no configuration call, no lookup. *)
Theorem nodes_other_methods_not_allowed request (w : World B) :
  unhandled_by_nodes (method request) = true ->
  serve (NodesApi env) request w =
  (Returned (HttpResponseNotAllowed ["GET"; "POST"; "HEAD"; "OPTIONS"]), w).
Proof.
  intros Hm. unfold serve, NodesApi. simpl. unfold View_dispatch.
  destruct (method request); simpl in *; try discriminate; reflexivity.
Qed.

End Further.

(** X11.  /nodes checks no permission: what it answers depends on the method
    and the body of the request only, not on who sends it, not on the CSRF
    token, and not on what the permission check would say. *)
Theorem nodes_ignore_user_and_permission (B : Type) (env1 env2 : Externals B)
    r1 r2 (w : World B) :
  same_content_library env1 env2 ->
  method r1 = method r2 ->
  body r1 = body r2 ->
  serve (NodesApi env1) r1 w = serve (NodesApi env2) r2 w.
Proof.
  destruct env1, env2. unfold same_content_library. simpl.
  intros (-> & -> & -> & ->).
  destruct r1 as [m1 b1 t1 u1], r2 as [m2 b2 t2 u2]. simpl.
  intros -> ->.
  destruct m2; reflexivity.
Qed.

(** * The further properties on the demonstration store *)

(** X1, witness: the body [[1]] is JSON but has no [.items()]. *)
Lemma nodes_reject_non_object_body_witness :
  NodesApi_get Demo.env (Demo.request GET "[1]" false "anyone") Demo.world0
    = (Raised (AttributeError "object has no attribute 'items'"),
       Demo.world0) /\
  NodesApi_post Demo.env (Demo.request POST "[1]" false "anyone") Demo.world0
    = (Raised (AttributeError "object has no attribute 'items'"),
       after_configure Demo.world0).
Proof.
  split.
  - apply (proj1 (nodes_reject_non_object_body (Dict.t json) Demo.env
                    (Demo.request GET "[1]" false "anyone") Demo.world0
                    (JArray [JNumber 1]) eq_refl I)).
  - apply (proj2 (nodes_reject_non_object_body (Dict.t json) Demo.env
                    (Demo.request POST "[1]" false "anyone") Demo.world0
                    (JArray [JNumber 1]) eq_refl I)).
Defined.

(** X2, witness: of three entries the second has an invalid URI; on GET the
    default of the first has reached the cache and stays there, the third is
    never looked up. *)
Lemma nodes_stop_at_first_failure_witness :
  exists w',
    NodesApi_get Demo.env (Demo.request GET Demo.body_bad_uri false "anyone")
      Demo.world0 = (Raised (LibraryError "invalid uri"), w') /\
    cio w' =
      {| CACHE_ON_GET := true;
         backend := [("i18n://sv-se@a/uri.txt", JString "first")] |} /\
    calls_of (trace w') =
      [("a/uri", JString "first"); ("", JString "second")].
Proof.
  apply (proj1 (nodes_stop_at_first_failure (Dict.t json) Demo.env
                  (Demo.request GET Demo.body_bad_uri false "anyone")
                  Demo.world0
                  [("a/uri", JString "first")] "" (JString "second")
                  [("b/uri", JString "third")]
                  [{| uri := "i18n://sv-se@a/uri.txt";
                      node_content := JString "first" |}]
                  {| CACHE_ON_GET := true;
                     backend :=
                       [("i18n://sv-se@a/uri.txt", JString "first")] |}
                  (LibraryError "invalid uri")
                  {| CACHE_ON_GET := true;
                     backend :=
                       [("i18n://sv-se@a/uri.txt", JString "first")] |}
                  eq_refl eq_refl)).
  econstructor; [reflexivity|constructor].
Defined.


(** X5, witness: a POST without a token and with a malformed body still
    switches get-caching off for good. *)
Lemma post_nodes_leaves_get_caching_off_witness :
  CACHE_ON_GET (cio Demo.world0) = true /\
  CACHE_ON_GET
    (cio (snd (serve (NodesApi Demo.env)
                 (Demo.request POST "{oops" false "anyone") Demo.world0)))
    = false.
Proof.
  split; [reflexivity|].
  apply (post_nodes_leaves_get_caching_off (Dict.t json) Demo.env
           (Demo.request POST "{oops" false "anyone") Demo.world0
           demo_keeps_settings eq_refl).
Defined.

(** X6, witness: with get-caching on, the lookup of a GET runs with it on. *)
Lemma get_nodes_runs_under_current_setting_witness :
  CACHE_ON_GET
    (cio (snd (NodesApi_get Demo.env
                 (Demo.request GET Demo.body_a false "anyone") Demo.world0)))
    = true /\
  exists gets,
    trace (snd (NodesApi_get Demo.env
                  (Demo.request GET Demo.body_a false "anyone") Demo.world0))
      = gets /\
    Forall (ran_with true) gets.
Proof.
  apply (get_nodes_runs_under_current_setting (Dict.t json) Demo.env
           (Demo.request GET Demo.body_a false "anyone") Demo.world0
           demo_keeps_settings).
Defined.


(** X8, witness: two entries, two different node URIs, two response entries
    in request order. *)
Lemma nodes_distinct_uris_keep_order_witness :
  fst (NodesApi_get Fixture.env
         (Demo.request GET Fixture.body_two false "anyone") Demo.world0)
    = Returned
        (HttpResponse_new
           (Demo.dumps [("i18n://sv-se@a/uri.txt", JString "first");
                        ("i18n://sv-se@b/uri.txt", JString "third")])
           (Some "application/json") None) /\
  List.length
    [("i18n://sv-se@a/uri.txt", JString "first");
     ("i18n://sv-se@b/uri.txt", JString "third")] = 2%nat.
Proof.
  refine (nodes_distinct_uris_keep_order (Dict.t json) Fixture.env
            (Demo.request GET Fixture.body_two false "anyone") Demo.world0
            [("a/uri", JString "first"); ("b/uri", JString "third")]
            [{| uri := "i18n://sv-se@a/uri.txt";
                node_content := JString "first" |};
             {| uri := "i18n://sv-se@b/uri.txt";
                node_content := JString "third" |}]
            _ eq_refl _ _).
  - econstructor; [reflexivity|].
    econstructor; [reflexivity|constructor].
  - constructor.
    + simpl. intros [H|[]]. discriminate H.
    + constructor; [intros []|constructor].
Defined.

(** X10, witness: a DELETE is refused and changes nothing. *)
Lemma nodes_other_methods_not_allowed_witness :
  serve (NodesApi Demo.env) (Demo.request DELETE Demo.body_a false "anyone")
    Demo.world0
  = (Returned (HttpResponseNotAllowed ["GET"; "POST"; "HEAD"; "OPTIONS"]),
     Demo.world0).
Proof.
  apply (nodes_other_methods_not_allowed (Dict.t json) Demo.env
           (Demo.request DELETE Demo.body_a false "anyone") Demo.world0
           eq_refl).
Defined.

(** X11, witness: where nobody has permission, an anonymous POST without a
    token is answered like a POST by a member of staff where staff has
    permission. *)
Lemma nodes_ignore_user_and_permission_witness :
  has_permission Fixture.locked_env Demo.post_a = false /\
  has_permission Fixture.env (Demo.request POST Demo.body_a true "staff")
    = true /\
  serve (NodesApi Fixture.locked_env) Demo.post_a Demo.world0 =
  serve (NodesApi Fixture.env) (Demo.request POST Demo.body_a true "staff")
    Demo.world0.
Proof.
  split; [reflexivity|]. split; [reflexivity|].
  apply (nodes_ignore_user_and_permission (Dict.t json)
           Fixture.locked_env Fixture.env
           Demo.post_a (Demo.request POST Demo.body_a true "staff")
           Demo.world0).
  - repeat split.
  - reflexivity.
  - reflexivity.
Defined.
